(** * idrac_syslog: enable or disable the syslog on iDRAC

    A shallow embedding of [library/dellemc/idrac/idrac_syslog.py]
    (Dell EMC OpenManage Ansible Modules 2.1.1) and the properties of
    its two functions, [run_setup_idrac_syslog] and [main].

    The module is glue code around the OMSDK: every call into the SDK is
    an opaque operation that either returns a Python value or raises.
    The embedding therefore runs the module against an arbitrary
    behaviour of the SDK, [sdk : sdk_call -> result pyval], and records
    the calls that are issued in a trace. *)

From Stdlib Require Import List String ZArith Bool Lia.
Import ListNotations.
Open Scope string_scope.
Open Scope list_scope.
Set Warnings "-register-all".

(* ================================================================= *)
(** ** Python values *)

(** The values that flow through the module: parameters, SDK handles
    and the job/status dictionaries the SDK answers with.  A dictionary
    with string keys is an association list; the first binding of a key
    is the one that counts. *)
Inductive pyval : Type :=
| PNone
| PBool (b : bool)
| PInt (z : Z)
| PStr (s : string)
| PList (l : list pyval)
| PDict (d : list (string * pyval)).

Definition dict : Type := list (string * pyval).

Fixpoint lookup (k : string) (d : dict) : option pyval :=
  match d with
  | [] => None
  | (k', v) :: d' => if String.eqb k' k then Some v else lookup k d'
  end.

(** [v == "literal"]: only a string equal to the literal compares equal. *)
Definition eq_str (v : pyval) (s : string) : bool :=
  match v with
  | PStr s' => String.eqb s' s
  | _ => false
  end.

(* ================================================================= *)
(** ** Exceptions *)

(** The exception classes that matter to the handlers of [main], with
    the classes they derive from.  [ConnectionError] and
    [SSLValidationError] are the ones of [ansible.module_utils.urls]
    (the import on line 156 shadows the builtin [ConnectionError]);
    [HTTPError] and [URLError] are those of [urllib.error]. *)
Inductive exc_class : Type :=
| Exception
| OSError
| URLError
| HTTPError
| ConnectionError
| SSLValidationError
| RuntimeError
| NotImplementedError
| LookupError
| KeyError
| ImportError
| ModuleNotFoundError
| ValueError
| JSONDecodeError
| TypeError
| AttributeError
| NameError
| UnboundLocalError.

Scheme Equality for exc_class.

(** The direct base class; [Exception] is the root of this fragment of
    the hierarchy. *)
Definition base (c : exc_class) : option exc_class :=
  match c with
  | Exception => None
  | URLError => Some OSError
  | HTTPError => Some URLError
  | SSLValidationError => Some ConnectionError
  | NotImplementedError => Some RuntimeError
  | KeyError => Some LookupError
  | ModuleNotFoundError => Some ImportError
  | JSONDecodeError => Some ValueError
  | UnboundLocalError => Some NameError
  | _ => Some Exception
  end.

(** [issubclass_upto n c d]: [d] is reached from [c] in at most [n]
    steps along [base]. *)
Fixpoint issubclass_upto (n : nat) (c d : exc_class) : bool :=
  exc_class_beq c d ||
  match n with
  | O => false
  | S n' =>
      match base c with
      | Some b => issubclass_upto n' b d
      | None => false
      end
  end.

(** No chain of bases is longer than three steps
    ([HTTPError] < [URLError] < [OSError] < [Exception]). *)
Definition issubclass (c d : exc_class) : bool := issubclass_upto 3 c d.

(** An exception object.  [exn_str] is what [str(e)] yields.
    [exn_json] is what [json.load(e)] yields when the object is read as a
    file (an [HTTPError] is file-like and reads as its response body):
    [Some v] when the body is the JSON document [v], [None] when the body
    is not JSON and [json.load] raises. *)
Record exn : Type := mk_exn {
  exn_class : exc_class;
  exn_str : string;
  exn_json : option pyval
}.

Definition isinstance (e : exn) (c : exc_class) : bool :=
  issubclass (exn_class e) c.

Inductive result (A : Type) : Type :=
| Return (a : A)
| Raise (e : exn).
Arguments Return {A} a.
Arguments Raise {A} e.

(* ================================================================= *)
(** ** Calls into the SDK and traces *)

(** One constructor per call the module issues.  [apply_changes] is
    [None] where the source passes no argument and leaves the SDK's
    default (apply the change) in force. *)
Inductive sdk_call : Type :=
| iDRACConnection (module_params : dict)
| UserCredentials (username password : pyval)
| create_share_obj (share_path mount_point : pyval) (isFolder : bool)
                   (creds : pyval)
| set_liason_share (share : pyval)
| enable_syslog (apply_changes : option bool)
| disable_syslog (apply_changes : option bool)
| is_change_applicable.

Inductive event : Type :=
| Call (c : sdk_call)
| Assign_use_redfish (b : bool)
| Release.

Definition trace : Type := list event.

Definition is_setter (c : sdk_call) : bool :=
  match c with
  | enable_syslog _ | disable_syslog _ => true
  | _ => false
  end.

(** A setter call mutates the controller unless it is issued with
    [apply_changes=False]. *)
Definition is_mutating (c : sdk_call) : bool :=
  match c with
  | enable_syslog (Some false) | disable_syslog (Some false) => false
  | enable_syslog _ | disable_syslog _ => true
  | _ => false
  end.

Fixpoint calls (t : trace) : list sdk_call :=
  match t with
  | [] => []
  | Call c :: t' => c :: calls t'
  | _ :: t' => calls t'
  end.

Definition setter_calls (t : trace) : list sdk_call :=
  filter is_setter (calls t).

Definition mutating_calls (t : trace) : list sdk_call :=
  filter is_mutating (calls t).

Fixpoint releases (t : trace) : nat :=
  match t with
  | [] => 0
  | Release :: t' => S (releases t')
  | _ :: t' => releases t'
  end.

(* ================================================================= *)
(** ** The module object *)

Record module_t : Type := mk_module {
  params : dict;
  check_mode : bool
}.

(** What the module process ends with: a call of [module.exit_json] or
    of [module.fail_json] with the keyword arguments given, or an
    exception no handler took. *)
Inductive outcome : Type :=
| exit_json (kwargs : dict)
| fail_json (kwargs : dict)
| traceback (e : exn).

(* ================================================================= *)
(** ** Computations: a trace and an exception *)

Definition M (A : Type) : Type := trace -> result A * trace.

Definition ret {A : Type} (a : A) : M A := fun t => (Return a, t).

Definition raise {A : Type} (e : exn) : M A := fun t => (Raise e, t).

Definition bind {A B : Type} (m : M A) (k : A -> M B) : M B :=
  fun t =>
    match m t with
    | (Return a, t') => k a t'
    | (Raise e, t') => (Raise e, t')
    end.

Declare Scope py_scope.
Delimit Scope py_scope with py.
Notation "x <- m ;; k" := (bind m (fun x => k))
  (at level 100, m at next level, right associativity) : py_scope.
Notation "m ;; k" := (bind m (fun _ => k))
  (at level 100, right associativity) : py_scope.
Open Scope py_scope.

Definition emit (e : event) : M unit := fun t => (Return tt, t ++ [e]).

(** [d[k]]: a missing key raises [KeyError], whose [str] is the [repr]
    of the key. *)
Definition subscript (d : dict) (k : string) : M pyval :=
  match lookup k d with
  | Some v => ret v
  | None => raise (mk_exn KeyError ("'" ++ k ++ "'")%string None)
  end.

(** [v.get(k)]: the dictionary method; a missing key gives [None].  A
    value that is not a dictionary has no [get]. *)
Definition get (v : pyval) (k : string) : M pyval :=
  match v with
  | PDict d => match lookup k d with
               | Some x => ret x
               | None => ret PNone
               end
  | _ => raise (mk_exn AttributeError "object has no attribute 'get'" None)
  end.

Section WithSDK.

(** The behaviour of the SDK during one invocation. *)
Variable sdk : sdk_call -> result pyval.

Definition call (c : sdk_call) : M pyval :=
  fun t => (sdk c, t ++ [Call c]).

(** Modelled from the spec: the class [iDRACConnection] of
    [module_utils/remote_management/dellemc/dellemc_idrac.py] is not
    among the sources at hand.  It is "a scoped session to the remote
    controller":
    constructing and entering it opens the session and yields the SDK
    handle, or raises; leaving the [with] block releases the session
    and lets an exception of the body pass.  Python calls [__exit__]
    exactly when [__enter__] has returned. *)
Definition with_iDRACConnection {A : Type} (module_params : dict)
    (body : pyval -> M A) : M A :=
  fun t =>
    match call (iDRACConnection module_params) t with
    | (Raise e, t') => (Raise e, t')
    | (Return idrac, t') =>
        let (r, t'') := body idrac t' in (r, t'' ++ [Release])
    end.

(** Lines 166-173: the liaison share. *)
Definition set_share (idrac : pyval) (module : module_t) : M unit :=
  emit (Assign_use_redfish true) ;;
  share_name <- subscript (params module) "share_name" ;;
  share_mnt <- subscript (params module) "share_mnt" ;;
  share_user <- subscript (params module) "share_user" ;;
  share_password <- subscript (params module) "share_password" ;;
  creds <- call (UserCredentials share_user share_password) ;;
  upd_share <- call (create_share_obj share_name share_mnt true creds) ;;
  call (set_liason_share upd_share) ;;
  ret tt.

(** Lines 174-185: the dispatch on [check_mode] and [syslog]. *)
Definition dispatch_syslog (idrac : pyval) (module : module_t) : M pyval :=
  if check_mode module then
    (syslog <- subscript (params module) "syslog" ;;
     if eq_str syslog "Enabled" then
       call (enable_syslog (Some false)) ;; ret tt
     else
       syslog' <- subscript (params module) "syslog" ;;
       if eq_str syslog' "Disabled" then
         call (disable_syslog (Some false)) ;; ret tt
       else ret tt) ;;
    call is_change_applicable
  else
    syslog <- subscript (params module) "syslog" ;;
    if eq_str syslog "Enabled" then
      call (enable_syslog None)
    else
      syslog' <- subscript (params module) "syslog" ;;
      if eq_str syslog' "Disabled" then
        call (disable_syslog None)
      else
        raise (mk_exn UnboundLocalError
                 "local variable 'msg' referenced before assignment" None).

(** Lines 165-185. *)
Definition run_setup_idrac_syslog (idrac : pyval) (module : module_t)
  : M pyval :=
  set_share idrac module ;;
  dispatch_syslog idrac module.

(** Lines 206-210. *)
Definition changed_of (msg : pyval) : M bool :=
  status <- get msg "Status" ;;
  if eq_str status "Success" then
    message <- get msg "Message" ;;
    if eq_str message "No changes found to commit!" then ret false
    else ret true
  else ret false.

(** Lines 204-210: the body of the [try]. *)
Definition try_block (module : module_t) : M (pyval * bool) :=
  with_iDRACConnection (params module) (fun idrac =>
    msg <- run_setup_idrac_syslog idrac module ;;
    changed <- changed_of msg ;;
    ret (msg, changed)).

(** The classes of the third [except] clause (lines 215-216). *)
Definition generic_classes : list exc_class :=
  [RuntimeError; SSLValidationError; ConnectionError; KeyError;
   ImportError; ValueError; TypeError].

(** Lines 211-217: the [except] clauses, tried in order.  An exception
    raised inside a handler is not offered to the clauses after it. *)
Definition handle (e : exn) : outcome :=
  if isinstance e HTTPError then
    match exn_json e with
    | Some error_info =>
        fail_json [("msg", PStr (exn_str e)); ("error_info", error_info)]
    | None =>
        traceback (mk_exn JSONDecodeError "Expecting value" None)
    end
  else if isinstance e URLError then
    exit_json [("msg", PStr (exn_str e)); ("unreachable", PBool true)]
  else if existsb (isinstance e) generic_classes then
    fail_json [("msg", PStr (exn_str e))]
  else traceback e.

(** Lines 203-218, for a module object already built. *)
Definition run_module (module : module_t) : outcome * trace :=
  match try_block module [] with
  | (Return (msg, changed), t) =>
      (exit_json [("msg", msg); ("changed", PBool changed)], t)
  | (Raise e, t) => (handle e, t)
  end.

End WithSDK.

(* ================================================================= *)
(** ** The argument specification and [AnsibleModule] *)

Inductive arg_type : Type := type_str | type_int.

(** One entry of [argument_spec].  An entry that names no type has type
    ['str'], the framework's default. *)
Record option_spec : Type := mk_option {
  opt_name : string;
  opt_required : bool;
  opt_type : arg_type;
  opt_default : option pyval;
  opt_choices : option (list string);
  opt_aliases : list string;
  opt_no_log : bool
}.

(** Lines 190-200. *)
Definition argument_spec : list option_spec :=
  [ {| opt_name := "idrac_ip"; opt_required := true; opt_type := type_str;
       opt_default := None; opt_choices := None; opt_aliases := [];
       opt_no_log := false |};
    {| opt_name := "idrac_user"; opt_required := true; opt_type := type_str;
       opt_default := None; opt_choices := None; opt_aliases := [];
       opt_no_log := false |};
    {| opt_name := "idrac_password"; opt_required := true;
       opt_type := type_str; opt_default := None; opt_choices := None;
       opt_aliases := ["idrac_pwd"]; opt_no_log := true |};
    {| opt_name := "idrac_port"; opt_required := false; opt_type := type_int;
       opt_default := Some (PInt 443); opt_choices := None;
       opt_aliases := []; opt_no_log := false |};
    {| opt_name := "share_name"; opt_required := true; opt_type := type_str;
       opt_default := None; opt_choices := None; opt_aliases := [];
       opt_no_log := false |};
    {| opt_name := "share_user"; opt_required := false; opt_type := type_str;
       opt_default := None; opt_choices := None; opt_aliases := [];
       opt_no_log := false |};
    {| opt_name := "share_password"; opt_required := false;
       opt_type := type_str; opt_default := None; opt_choices := None;
       opt_aliases := ["share_pwd"]; opt_no_log := true |};
    {| opt_name := "share_mnt"; opt_required := false; opt_type := type_str;
       opt_default := None; opt_choices := None; opt_aliases := [];
       opt_no_log := false |};
    {| opt_name := "syslog"; opt_required := false; opt_type := type_str;
       opt_default := Some (PStr "Enabled");
       opt_choices := Some ["Enabled"; "Disabled"]; opt_aliases := [];
       opt_no_log := false |} ].

(** [AnsibleModule] belongs to Ansible, not to this repository.  What
    follows is the contract of an argument specification as the module
    relies on it: an option is read under its name or an alias; a
    required option must be given; an omitted option takes its default,
    or [None]; a given value must have the option's type and, where the
    option lists choices, be one of them; a parameter the specification
    does not know is refused.  The framework's conversions between types
    are left out. *)
Fixpoint first_supplied (names : list string) (args : dict)
  : option pyval :=
  match names with
  | [] => None
  | n :: names' =>
      match lookup n args with
      | Some v => Some v
      | None => first_supplied names' args
      end
  end.

Definition supplied (o : option_spec) (args : dict) : option pyval :=
  first_supplied (opt_name o :: opt_aliases o) args.

Definition has_type (ty : arg_type) (v : pyval) : bool :=
  match ty, v with
  | type_str, PStr _ => true
  | type_int, PInt _ => true
  | _, _ => false
  end.

Definition check_option (o : option_spec) (args : dict) : string + pyval :=
  match supplied o args with
  | None =>
      if opt_required o
      then inl ("missing required arguments: " ++ opt_name o)%string
      else inr (match opt_default o with Some v => v | None => PNone end)
  | Some v =>
      if has_type (opt_type o) v then
        match opt_choices o with
        | None => inr v
        | Some choices =>
            if existsb (eq_str v) choices then inr v
            else inl ("value of " ++ opt_name o
                      ++ " must be one of the choices")%string
        end
      else inl ("argument " ++ opt_name o ++ " is of the wrong type")%string
  end.

Fixpoint check_options (spec : list option_spec) (args : dict)
  : string + dict :=
  match spec with
  | [] => inr []
  | o :: spec' =>
      match check_option o args with
      | inl e => inl e
      | inr v =>
          match check_options spec' args with
          | inl e => inl e
          | inr d => inr ((opt_name o, v) :: d)
          end
      end
  end.

Definition known (spec : list option_spec) (k : string) : bool :=
  existsb (fun o => existsb (String.eqb k) (opt_name o :: opt_aliases o))
          spec.

(** The constructor either yields the module object or has already
    ended the process. *)
Definition AnsibleModule (spec : list option_spec)
    (supports_check_mode : bool) (args : dict) (check : bool)
  : outcome + module_t :=
  if forallb (known spec) (map fst args) then
    match check_options spec args with
    | inl e => inl (fail_json [("msg", PStr e)])
    | inr d =>
        if check && negb supports_check_mode
        then inl (exit_json [("skipped", PBool true)])
        else inr (mk_module d check)
    end
  else inl (fail_json [("msg", PStr "Unsupported parameters for module")]).

(** Lines 188-218: one invocation of the module with the arguments
    [args], in check mode when [check] is set. *)
Definition main (sdk : sdk_call -> result pyval) (args : dict)
    (check : bool) : outcome * trace :=
  match AnsibleModule argument_spec true args check with
  | inl o => (o, [])
  | inr module => run_module sdk module
  end.

(* ================================================================= *)
(** ** Vocabulary of the properties *)

(** [msg.get(k)] on a dictionary. *)
Definition dict_get (d : dict) (k : string) : pyval :=
  match lookup k d with
  | Some x => x
  | None => PNone
  end.

(** The flag lines 206-210 compute from a dictionary. *)
Definition changed_flag (d : dict) : bool :=
  eq_str (dict_get d "Status") "Success" &&
  negb (eq_str (dict_get d "Message") "No changes found to commit!").

(** The classes some [except] clause of [main] names. *)
Definition caught (e : exn) : bool :=
  isinstance e HTTPError || isinstance e URLError ||
  existsb (isinstance e) generic_classes.

(** The setter the value of [syslog] selects. *)
Definition setter_for (syslog : string) (apply_changes : option bool)
  : sdk_call :=
  if String.eqb syslog "Enabled" then enable_syslog apply_changes
  else disable_syslog apply_changes.

(** The [apply_changes] argument the source passes: [False] in check
    mode, none otherwise. *)
Definition apply_flag (check : bool) : option bool :=
  if check then Some false else None.


(** [ordered_from share_set t]: in [t], every operation on the pending
    configuration (a setter or the prediction) comes after a
    [set_liason_share]; [share_set] tells whether one has been seen. *)
Fixpoint ordered_from (share_set : bool) (t : trace) : bool :=
  match t with
  | [] => true
  | Call (set_liason_share _) :: t' => ordered_from true t'
  | Call (enable_syslog _) :: t'
  | Call (disable_syslog _) :: t'
  | Call is_change_applicable :: t' => share_set && ordered_from share_set t'
  | _ :: t' => ordered_from share_set t'
  end.

Definition share_set_first (t : trace) : bool := ordered_from false t.

(** The exception [v.get] raises on a value that is no dictionary. *)
Definition no_get : exn :=
  mk_exn AttributeError "object has no attribute 'get'" None.

(** The exception [return msg] raises when no branch assigned [msg]. *)
Definition unbound_msg : exn :=
  mk_exn UnboundLocalError
    "local variable 'msg' referenced before assignment" None.

(* ================================================================= *)
(** ** Sample invocations *)

Module Samples.

Definition args (syslog : string) : dict :=
  [("idrac_ip", PStr "192.168.0.1"); ("idrac_user", PStr "root");
   ("idrac_password", PStr "calvin"); ("share_name", PStr "/tmp/share");
   ("syslog", PStr syslog)].

(** The same caller, leaving [idrac_port] and [syslog] out. *)
Definition args_defaults : dict :=
  [("idrac_ip", PStr "192.168.0.1"); ("idrac_user", PStr "root");
   ("idrac_pwd", PStr "calvin"); ("share_name", PStr "/tmp/share")].

(** The module objects [AnsibleModule] builds from them. *)
Definition module_of (syslog : string) (check : bool) : module_t :=
  mk_module
    [("idrac_ip", PStr "192.168.0.1"); ("idrac_user", PStr "root");
     ("idrac_password", PStr "calvin"); ("idrac_port", PInt 443);
     ("share_name", PStr "/tmp/share"); ("share_user", PNone);
     ("share_password", PNone); ("share_mnt", PNone);
     ("syslog", PStr syslog)]
    check.

Definition module_defaults : module_t := module_of "Enabled" false.

Definition job (status message : string) : pyval :=
  PDict [("Status", PStr status); ("Message", PStr message)].

(** An SDK whose setters answer [msg] and whose prediction is
    [prediction]. *)
Definition sdk_ok (msg prediction : pyval) (c : sdk_call) : result pyval :=
  match c with
  | enable_syslog _ | disable_syslog _ => Return msg
  | is_change_applicable => Return prediction
  | iDRACConnection _ => Return (PStr "idrac")
  | UserCredentials _ _ => Return (PStr "creds")
  | create_share_obj _ _ _ _ => Return (PStr "share")
  | set_liason_share _ => Return PNone
  end.

(** An SDK that cannot open the session. *)
Definition sdk_down (e : exn) (c : sdk_call) : result pyval :=
  match c with
  | iDRACConnection _ => Raise e
  | _ => Return PNone
  end.

(** An SDK whose setters raise. *)
Definition sdk_setter_raises (e : exn) (c : sdk_call) : result pyval :=
  match c with
  | enable_syslog _ | disable_syslog _ => Raise e
  | _ => sdk_ok PNone PNone c
  end.

Definition url_error : exn :=
  mk_exn URLError "<urlopen error [Errno 111] Connection refused>" None.

Definition error_body : pyval :=
  PDict [("error", PDict [("code", PStr "Base.1.0.GeneralError")])].

Definition http_error : exn :=
  mk_exn HTTPError "HTTP Error 400: Bad Request" (Some error_body).

Definition timeout_error : exn := mk_exn OSError "timed out" None.

Definition runtime_error : exn :=
  mk_exn RuntimeError "Could not find device driver for iDRAC" None.

Definition html_error : exn :=
  mk_exn HTTPError "HTTP Error 502: Bad Gateway" None.

(** The caller's arguments without the required [share_name]. *)
Definition args_no_share : dict :=
  [("idrac_ip", PStr "192.168.0.1"); ("idrac_user", PStr "root");
   ("idrac_password", PStr "calvin")].

(** Module objects built by hand, as a test of [run_setup_idrac_syslog]
    would: one whose [syslog] is neither choice, one without the share
    parameters. *)
Definition module_other (check : bool) : module_t :=
  module_of "On" check.


End Samples.

(* ================================================================= *)
(** ** Basic facts *)

(** Three steps along [base] reach the root from every class, so
    [issubclass] decides the whole hierarchy. *)
Lemma issubclass_Exception (c : exc_class) : issubclass c Exception = true.
Proof. destruct c; reflexivity. Qed.

Lemma issubclass_refl (c : exc_class) : issubclass c c = true.
Proof. destruct c; reflexivity. Qed.

(** An [HTTPError] is a [URLError]: the order of the first two [except]
    clauses matters. *)
Lemma HTTPError_is_URLError (e : exn) :
  isinstance e HTTPError = true -> isinstance e URLError = true.
Proof. unfold isinstance. destruct (exn_class e); cbn; congruence. Qed.

Lemma eq_str_true (v : pyval) (s : string) :
  eq_str v s = true <-> v = PStr s.
Proof.
  destruct v; simpl; split; intro H; try discriminate.
  - apply String.eqb_eq in H. now subst.
  - injection H as ->. apply String.eqb_refl.
Qed.

Lemma eq_str_false (v : pyval) (s : string) :
  eq_str v s = false <-> v <> PStr s.
Proof.
  rewrite <- eq_str_true. destruct (eq_str v s); split; congruence.
Qed.

(** What [check_options] leaves in [module.params]: one binding per
    entry of the specification, in its order, each holding what
    [check_option] let through. *)
Lemma check_options_inr (spec : list option_spec) (args d : dict) :
  check_options spec args = inr d ->
  Forall2 (fun o kv => fst kv = opt_name o /\
                       check_option o args = inr (snd kv)) spec d.
Proof.
  revert d. induction spec as [|o spec IH]; intros d H; simpl in H.
  - injection H as <-. constructor.
  - destruct (check_option o args) as [e|v] eqn:Ho; [discriminate|].
    destruct (check_options spec args) as [e|d'] eqn:Hd; [discriminate|].
    injection H as <-. constructor; auto.
Qed.

Lemma check_option_default (o : option_spec) (args : dict) (v w : pyval) :
  opt_aliases o = [] ->
  opt_default o = Some w ->
  lookup (opt_name o) args = None ->
  check_option o args = inr v ->
  v = w.
Proof.
  intros Ha Hd Hl. unfold check_option, supplied. rewrite Ha. simpl.
  rewrite Hl, Hd. destruct (opt_required o); congruence.
Qed.

Lemma check_option_choices (o : option_spec) (args : dict) (v : pyval)
    (choices : list string) :
  opt_choices o = Some choices ->
  opt_required o = false ->
  (forall w, opt_default o = Some w -> existsb (eq_str w) choices = true) ->
  opt_default o <> None ->
  check_option o args = inr v ->
  exists s, v = PStr s /\ In s choices.
Proof.
  intros Hc Hr Hd Hn. unfold check_option. rewrite Hc, Hr.
  assert (E : forall x, existsb (eq_str x) choices = true ->
                        exists s, x = PStr s /\ In s choices).
  { intros x Hx. apply existsb_exists in Hx as (s & Hs & Hx).
    apply eq_str_true in Hx. eauto. }
  destruct (supplied o args) as [x|].
  - destruct (has_type (opt_type o) x); [|discriminate].
    destruct (existsb (eq_str x) choices) eqn:Hx; [|discriminate].
    intros [= <-]. auto.
  - destruct (opt_default o) as [w|]; [|congruence].
    intros [= <-]. auto.
Qed.

(** The module object [main] works with. *)
Lemma AnsibleModule_inr (args : dict) (chk : bool) (module : module_t) :
  AnsibleModule argument_spec true args chk = inr module ->
  check_mode module = chk /\
  exists ip user pwd port sname suser spwd smnt s,
    params module =
      [("idrac_ip", ip); ("idrac_user", user); ("idrac_password", pwd);
       ("idrac_port", port); ("share_name", sname); ("share_user", suser);
       ("share_password", spwd); ("share_mnt", smnt); ("syslog", PStr s)] /\
    (s = "Enabled" \/ s = "Disabled") /\
    (lookup "idrac_port" args = None -> port = PInt 443) /\
    (lookup "syslog" args = None -> s = "Enabled").
Proof.
  unfold AnsibleModule.
  destruct (forallb _ _); [|discriminate].
  destruct (check_options argument_spec args) as [e|d] eqn:Hd;
    [discriminate|].
  rewrite andb_false_r. intros [= <-]. split; [reflexivity|].
  apply check_options_inr in Hd. unfold argument_spec in Hd.
  repeat match goal with
         | H : Forall2 _ (_ :: _) _ |- _ =>
             inversion H as [|? [? ?] ? ? [? ?] ?]; clear H; simpl in *; subst
         | H : Forall2 _ [] _ |- _ => inversion H; clear H; subst
         end.
  match goal with
  | H : check_option (mk_option "syslog" _ _ _ _ _ _) args = inr ?v |- _ =>
      rename H into Hsys;
      assert (Hc : exists s, v = PStr s /\ In s ["Enabled"; "Disabled"])
  end.
  { refine (check_option_choices _ _ _ _ _ _ _ _ Hsys); simpl;
      try reflexivity; try discriminate.
    intros w [= <-]. reflexivity. }
  match goal with
  | H : check_option (mk_option "idrac_port" _ _ _ _ _ _) args = inr _ |- _ =>
      rename H into Hport
  end.
  destruct Hc as (s & -> & Hin).
  - do 9 eexists. split; [reflexivity|]. split; [|split].
    + simpl in Hin. intuition.
    + intro Hl.
      refine (check_option_default _ _ _ _ _ _ _ Hport);
        solve [reflexivity | exact Hl].
    + intro Hl.
      assert (E : PStr s = PStr "Enabled")
        by (refine (check_option_default _ _ _ _ _ _ _ Hsys);
            solve [reflexivity | exact Hl]).
      now injection E.
Qed.

Lemma check_option_supplied (o : option_spec) (args : dict) (v w : pyval) :
  lookup (opt_name o) args = Some v ->
  check_option o args = inr w ->
  w = v.
Proof.
  intros Hl. unfold check_option, supplied. simpl. rewrite Hl.
  destruct (has_type (opt_type o) v); [|discriminate].
  destruct (opt_choices o) as [choices|]; [|congruence].
  destruct (existsb (eq_str v) choices); congruence.
Qed.

Lemma AnsibleModule_syslog_supplied (args : dict) (chk : bool)
    (module : module_t) (v : pyval) :
  AnsibleModule argument_spec true args chk = inr module ->
  lookup "syslog" args = Some v ->
  lookup "syslog" (params module) = Some v.
Proof.
  unfold AnsibleModule.
  destruct (forallb _ _); [|discriminate].
  destruct (check_options argument_spec args) as [e|d] eqn:Hd;
    [discriminate|].
  rewrite andb_false_r. intros [= <-] Hl.
  apply check_options_inr in Hd. unfold argument_spec in Hd.
  repeat match goal with
         | H : Forall2 _ (_ :: _) _ |- _ =>
             inversion H as [|? [? ?] ? ? [? ?] ?]; clear H; simpl in *; subst
         | H : Forall2 _ [] _ |- _ => inversion H; clear H; subst
         end.
  match goal with
  | H : check_option (mk_option "syslog" _ _ _ _ _ _) args = inr _ |- _ =>
      eapply check_option_supplied in H; [|exact Hl]; now subst
  end.
Qed.

(* ================================================================= *)
(** ** Running the module symbolically *)

(** [open_module H] replaces the module object by its shape, given
    [H : AnsibleModule argument_spec true args chk = inr module]. *)
Ltac open_module H :=
  let Hc := fresh "Hcheck" in
  let Hp := fresh "Hparams" in
  let Hs := fresh "Hsyslog" in
  let m := match type of H with _ = inr ?m => m end in
  destruct (AnsibleModule_inr _ _ _ H)
    as (Hc & ?ip & ?user & ?pwd & ?port & ?sname & ?suser & ?spwd & ?smnt
        & ?s & Hp & Hs & _ & _);
  destruct m as [?ps ?cm]; simpl in Hc, Hp; subst.

Ltac unfold_module :=
  unfold run_module, try_block, with_iDRACConnection,
    run_setup_idrac_syslog, set_share, dispatch_syslog, changed_of, get,
    subscript, bind, call, emit, ret, raise in *.

(** The scrutinee the evaluation of [t] is waiting for. *)
Ltac head_scrutinee t :=
  lazymatch t with
  | match ?x with _ => _ end => head_scrutinee x
  | (match ?x with _ => _ end) _ => head_scrutinee x
  | _ => t
  end.

(** One step: decide the next thing the run depends on. *)
Ltac step :=
  match goal with
  | |- context [match ?x with _ => _ end] =>
      let y := head_scrutinee x in
      first [ is_var y; destruct y
            | let E := fresh "Hrun" in destruct y eqn:E ]
  end; cbn [fst snd app lookup String.eqb Ascii.eqb Bool.eqb eq_str params
            check_mode] in *.

Section Properties.

Variable sdk : sdk_call -> result pyval.

(** The [with] block releases the session it opened, once, as the last
    thing it does; a session that did not open is not released. *)
Lemma try_block_release (module : module_t) :
  let t := snd (try_block sdk module []) in
  match sdk (iDRACConnection (params module)) with
  | Return _ => t = removelast t ++ [Release] /\ releases (removelast t) = 0
  | Raise _ => releases t = 0
  end.
Proof.
  destruct module as [ps cm]. unfold_module. cbn [params check_mode app].
  destruct (sdk (iDRACConnection ps)) eqn:Hopen; [|reflexivity].
  destruct cm; repeat step; split; reflexivity.
Qed.

(** The first thing an invocation does is open the session, with the
    parameters of the module. *)
Lemma try_block_opens (module : module_t) :
  exists t, snd (try_block sdk module []) =
            Call (iDRACConnection (params module)) :: t.
Proof.
  destruct module as [ps cm]. unfold_module. cbn [params check_mode app].
  destruct cm; repeat step; eexists; reflexivity.
Qed.

(** An exception raised by a call into the SDK is the exception the
    [try] statement sees: nothing inside the block catches it and the
    release of the session lets it pass. *)
Lemma raised_reaches_handlers (module : module_t) (c : sdk_call) (e : exn) :
  In (Call c) (snd (try_block sdk module [])) ->
  sdk c = Raise e ->
  fst (try_block sdk module []) = Raise e.
Proof.
  destruct module as [ps cm]. unfold_module. cbn [params check_mode app].
  destruct cm; repeat step; cbn [In]; intros Hin Hc;
    intuition congruence.
Qed.

End Properties.

Section Results.

Variable sdk : sdk_call -> result pyval.

Lemma changed_of_dict (d : dict) (t : trace) :
  changed_of (PDict d) t = (Return (changed_flag d), t).
Proof.
  unfold changed_of, changed_flag, dict_get, get, bind, ret.
  destruct (lookup "Status" d) as [st|]; cbn [eq_str andb].
  - destruct (eq_str st "Success"); [|reflexivity].
    destruct (lookup "Message" d) as [m|]; cbn [eq_str andb negb].
    + destruct (eq_str m _); reflexivity.
    + reflexivity.
  - reflexivity.
Qed.

Lemma changed_flag_true (d : dict) :
  changed_flag d = true <->
  lookup "Status" d = Some (PStr "Success") /\
  lookup "Message" d <> Some (PStr "No changes found to commit!").
Proof.
  unfold changed_flag, dict_get.
  rewrite andb_true_iff, negb_true_iff, eq_str_true, eq_str_false.
  destruct (lookup "Status" d) as [st|], (lookup "Message" d) as [m|];
    intuition congruence.
Qed.

(** Once the session is open and [run_setup_idrac_syslog] has returned
    [msg], the outcome depends on [msg] alone. *)
Lemma run_module_returned (module : module_t) (idrac msg : pyval)
    (t : trace) :
  sdk (iDRACConnection (params module)) = Return idrac ->
  run_setup_idrac_syslog sdk idrac module
    [Call (iDRACConnection (params module))] = (Return msg, t) ->
  run_module sdk module =
    match changed_of msg t with
    | (Return changed, t') =>
        (exit_json [("msg", msg); ("changed", PBool changed)],
         t' ++ [Release])
    | (Raise e, t') => (handle e, t' ++ [Release])
    end.
Proof.
  intros Hopen Hrun.
  unfold run_module, try_block, with_iDRACConnection, call.
  rewrite Hopen. cbn [app]. unfold bind at 1. rewrite Hrun.
  unfold bind, ret. destruct (changed_of msg t) as [[c|e] t']; reflexivity.
Qed.

End Results.

(* ================================================================= *)
(** ** The changed flag *)

(** C1: for every result dictionary [d] the SDK call returns, the module
    exits with [changed] set if and only if [d]'s ['Status'] is
    ["Success"] and its ['Message'] is not the literal
    ["No changes found to commit!"]; in every other case [changed] is
    false. *)
Theorem changed_iff_success_with_changes
    (sdk : sdk_call -> result pyval) (args : dict) (chk : bool)
    (module : module_t) (idrac : pyval) (d : dict) (t : trace) :
  AnsibleModule argument_spec true args chk = inr module ->
  sdk (iDRACConnection (params module)) = Return idrac ->
  run_setup_idrac_syslog sdk idrac module
    [Call (iDRACConnection (params module))] = (Return (PDict d), t) ->
  exists changed : bool,
    fst (main sdk args chk) =
      exit_json [("msg", PDict d); ("changed", PBool changed)] /\
    (changed = true <->
       lookup "Status" d = Some (PStr "Success") /\
       lookup "Message" d <> Some (PStr "No changes found to commit!")).
Proof.
  intros Hmod Hopen Hrun. exists (changed_flag d). split.
  - unfold main. rewrite Hmod.
    rewrite (run_module_returned sdk module idrac (PDict d) t Hopen Hrun).
    rewrite changed_of_dict. reflexivity.
  - apply changed_flag_true.
Qed.

Lemma changed_iff_success_with_changes_witness :
  exists changed : bool,
    fst (main (Samples.sdk_ok (Samples.job "Success" "Applied") PNone)
              (Samples.args "Enabled") false) =
      exit_json [("msg", Samples.job "Success" "Applied");
                 ("changed", PBool changed)] /\
    (changed = true <->
       lookup "Status" [("Status", PStr "Success");
                        ("Message", PStr "Applied")]
         = Some (PStr "Success") /\
       lookup "Message" [("Status", PStr "Success");
                         ("Message", PStr "Applied")]
         <> Some (PStr "No changes found to commit!")).
Proof.
  eapply (changed_iff_success_with_changes
            (Samples.sdk_ok (Samples.job "Success" "Applied") PNone)
            (Samples.args "Enabled") false);
    reflexivity.
Defined.

(** C10: when the SDK call returns a dictionary whose ['Status'] is not
    ["Success"], the module still ends with [exit_json], carrying that
    dictionary and [changed=False]; it is not reported as a failure. *)
Theorem non_success_status_exits_unchanged
    (sdk : sdk_call -> result pyval) (args : dict) (chk : bool)
    (module : module_t) (idrac : pyval) (d : dict) (t : trace) :
  AnsibleModule argument_spec true args chk = inr module ->
  sdk (iDRACConnection (params module)) = Return idrac ->
  run_setup_idrac_syslog sdk idrac module
    [Call (iDRACConnection (params module))] = (Return (PDict d), t) ->
  lookup "Status" d <> Some (PStr "Success") ->
  fst (main sdk args chk) =
    exit_json [("msg", PDict d); ("changed", PBool false)].
Proof.
  intros Hmod Hopen Hrun Hst.
  unfold main. rewrite Hmod.
  rewrite (run_module_returned sdk module idrac (PDict d) t Hopen Hrun).
  rewrite changed_of_dict. cbn [fst].
  destruct (changed_flag d) eqn:Hc; [|reflexivity].
  apply changed_flag_true in Hc. tauto.
Qed.

Lemma non_success_status_exits_unchanged_witness :
  fst (main (Samples.sdk_ok (Samples.job "Failed" "Job failed") PNone)
            (Samples.args "Disabled") false) =
    exit_json [("msg", Samples.job "Failed" "Job failed");
               ("changed", PBool false)].
Proof.
  eapply (non_success_status_exits_unchanged
            (Samples.sdk_ok (Samples.job "Failed" "Job failed") PNone)
            (Samples.args "Disabled") false);
    try reflexivity.
  discriminate.
Defined.

(* ================================================================= *)
(** ** The session *)

(** C8: on every exit path of an invocation whose session has opened
    (the block returns, or anything raised after the opening, whether a
    handler takes it or not), the session is released before the module
    terminates: the release is the last event of the run, and it occurs
    once. *)
Theorem session_released_on_every_path
    (sdk : sdk_call -> result pyval) (args : dict) (chk : bool)
    (module : module_t) (idrac : pyval) :
  AnsibleModule argument_spec true args chk = inr module ->
  sdk (iDRACConnection (params module)) = Return idrac ->
  exists t : trace,
    snd (main sdk args chk) = t ++ [Release] /\ releases t = 0.
Proof.
  intros Hmod Hopen.
  pose proof (try_block_release sdk module) as Hrel. cbv zeta in Hrel.
  rewrite Hopen in Hrel. destruct Hrel as [Hlast Hnone].
  exists (removelast (snd (try_block sdk module []))).
  split; [|exact Hnone].
  unfold main. rewrite Hmod. unfold run_module.
  destruct (try_block sdk module []) as [[[msg changed]|e] t'];
    exact Hlast.
Qed.

Lemma session_released_on_every_path_witness :
  exists t : trace,
    snd (main (Samples.sdk_setter_raises Samples.timeout_error)
              (Samples.args "Enabled") false) = t ++ [Release] /\
    releases t = 0.
Proof.
  eapply (session_released_on_every_path
            (Samples.sdk_setter_raises Samples.timeout_error)
            (Samples.args "Enabled") false);
    reflexivity.
Defined.

(* ================================================================= *)
(** ** The arguments *)

(** C9: when the caller omits [idrac_port] the port in the parameters
    the session is opened with is 443; when the caller omits [syslog]
    the desired state is ["Enabled"]; and [syslog] is always one of
    ["Enabled"] and ["Disabled"], being the caller's value when one is
    given. *)
Theorem argument_defaults_and_choices
    (sdk : sdk_call -> result pyval) (args : dict) (chk : bool)
    (module : module_t) :
  AnsibleModule argument_spec true args chk = inr module ->
  (lookup "idrac_port" args = None ->
     lookup "idrac_port" (params module) = Some (PInt 443)) /\
  (lookup "syslog" args = None ->
     lookup "syslog" (params module) = Some (PStr "Enabled")) /\
  (exists s, lookup "syslog" (params module) = Some (PStr s) /\
             (s = "Enabled" \/ s = "Disabled")) /\
  (forall v, lookup "syslog" args = Some v ->
             v = PStr "Enabled" \/ v = PStr "Disabled") /\
  (exists t, snd (main sdk args chk) =
             Call (iDRACConnection (params module)) :: t).
Proof.
  intros Hmod.
  pose proof (AnsibleModule_syslog_supplied args chk module) as Hgiven.
  destruct (AnsibleModule_inr _ _ _ Hmod)
    as (_ & ip & user & pwd & port & sname & suser & spwd & smnt & s
        & Hp & Hs & Hport & Hdef).
  repeat split.
  - intro Hl. rewrite Hp, (Hport Hl). reflexivity.
  - intro Hl. rewrite Hp, (Hdef Hl). reflexivity.
  - exists s. rewrite Hp. split; [reflexivity | exact Hs].
  - intros v Hl. specialize (Hgiven v Hmod Hl). rewrite Hp in Hgiven.
    cbn in Hgiven. injection Hgiven as <-.
    destruct Hs; subst; auto.
  - unfold main. rewrite Hmod.
    destruct (try_block_opens sdk module) as [t Ht]. exists t.
    unfold run_module.
    destruct (try_block sdk module []) as [[[msg c]|e] t']; exact Ht.
Qed.

Lemma argument_defaults_and_choices_witness :
  AnsibleModule argument_spec true Samples.args_defaults false =
    inr Samples.module_defaults /\
  lookup "idrac_port" (params Samples.module_defaults) = Some (PInt 443) /\
  lookup "syslog" (params Samples.module_defaults) = Some (PStr "Enabled").
Proof.
  split; [reflexivity|].
  destruct (argument_defaults_and_choices
              (Samples.sdk_ok PNone PNone) Samples.args_defaults false
              Samples.module_defaults eq_refl)
    as (Hport & Hsyslog & _).
  split; [apply Hport | apply Hsyslog]; reflexivity.
Defined.

(* ================================================================= *)
(** ** The exception handlers *)

Lemma run_module_trace (sdk : sdk_call -> result pyval)
    (module : module_t) :
  snd (run_module sdk module) = snd (try_block sdk module []).
Proof.
  unfold run_module.
  destruct (try_block sdk module []) as [[[msg c]|e] t]; reflexivity.
Qed.

(** What [main] does with an exception a call into the SDK raised. *)
Lemma main_handles (sdk : sdk_call -> result pyval) (args : dict)
    (chk : bool) (c : sdk_call) (e : exn) :
  In (Call c) (snd (main sdk args chk)) ->
  sdk c = Raise e ->
  fst (main sdk args chk) = handle e.
Proof.
  unfold main.
  destruct (AnsibleModule argument_spec true args chk) as [o|module];
    [intros []|].
  rewrite run_module_trace. intros Hin Hc.
  pose proof (raised_reaches_handlers sdk module c e Hin Hc) as Hr.
  unfold run_module.
  destruct (try_block sdk module []) as [[[msg ch]|e'] t]; cbn in Hr;
    [discriminate|].
  injection Hr as ->. reflexivity.
Qed.

(** C5: when a call into the SDK raises a [URLError] (one that is not an
    [HTTPError]), the module ends with [exit_json], [unreachable=True]
    and the error's message: not a failure, and no exception leaves
    [main]. *)
Theorem url_error_exits_unreachable
    (sdk : sdk_call -> result pyval) (args : dict) (chk : bool)
    (c : sdk_call) (e : exn) :
  In (Call c) (snd (main sdk args chk)) ->
  sdk c = Raise e ->
  isinstance e URLError = true ->
  isinstance e HTTPError = false ->
  fst (main sdk args chk) =
    exit_json [("msg", PStr (exn_str e)); ("unreachable", PBool true)].
Proof.
  intros Hin Hc Hurl Hhttp.
  rewrite (main_handles sdk args chk c e Hin Hc).
  unfold handle. rewrite Hhttp, Hurl. reflexivity.
Qed.

Lemma url_error_exits_unreachable_witness :
  fst (main (Samples.sdk_down Samples.url_error)
            (Samples.args "Enabled") false) =
    exit_json [("msg", PStr (exn_str Samples.url_error));
               ("unreachable", PBool true)].
Proof.
  apply (url_error_exits_unreachable
           (Samples.sdk_down Samples.url_error) (Samples.args "Enabled")
           false
           (iDRACConnection (params (Samples.module_of "Enabled" false)))
           Samples.url_error).
  - simpl. left. reflexivity.
  - reflexivity.
  - reflexivity.
  - reflexivity.
Defined.

(** C6: when a call into the SDK raises an [HTTPError] whose body is a
    JSON document, the module ends with [fail_json] and its [error_info]
    is that document, parsed. *)
Theorem http_error_fails_with_error_info
    (sdk : sdk_call -> result pyval) (args : dict) (chk : bool)
    (c : sdk_call) (e : exn) (body : pyval) :
  In (Call c) (snd (main sdk args chk)) ->
  sdk c = Raise e ->
  isinstance e HTTPError = true ->
  exn_json e = Some body ->
  fst (main sdk args chk) =
    fail_json [("msg", PStr (exn_str e)); ("error_info", body)].
Proof.
  intros Hin Hc Hhttp Hbody.
  rewrite (main_handles sdk args chk c e Hin Hc).
  unfold handle. rewrite Hhttp, Hbody. reflexivity.
Qed.

Lemma http_error_fails_with_error_info_witness :
  fst (main (Samples.sdk_setter_raises Samples.http_error)
            (Samples.args "Disabled") false) =
    fail_json [("msg", PStr (exn_str Samples.http_error));
               ("error_info", Samples.error_body)].
Proof.
  apply (http_error_fails_with_error_info
           (Samples.sdk_setter_raises Samples.http_error)
           (Samples.args "Disabled") false (disable_syslog None)
           Samples.http_error Samples.error_body).
  - simpl. tauto.
  - reflexivity.
  - reflexivity.
  - reflexivity.
Defined.

(** C7, as the code has it: an exception out of the [try] block whose
    class is one the [except] clauses name ([HTTPError], [URLError],
    [RuntimeError], [SSLValidationError], [ConnectionError], [KeyError],
    [ImportError], [ValueError], [TypeError], or a subclass), and whose
    body is JSON when it is an [HTTPError], is translated to exactly one
    of three outcomes, chosen by its class: [fail_json] with
    [error_info] for an [HTTPError], [exit_json] with [unreachable] for
    any other [URLError], [fail_json] with the message alone for the
    rest.  An exception of any other class leaves [main]. *)
Theorem named_exceptions_are_translated
    (sdk : sdk_call -> result pyval) (args : dict) (chk : bool)
    (module : module_t) (e : exn) (t : trace) :
  AnsibleModule argument_spec true args chk = inr module ->
  try_block sdk module [] = (Raise e, t) ->
  (caught e = true ->
   (isinstance e HTTPError = true -> exn_json e <> None) ->
   (isinstance e HTTPError = true /\
    exists info, exn_json e = Some info /\
      fst (main sdk args chk) =
        fail_json [("msg", PStr (exn_str e)); ("error_info", info)]) \/
   (isinstance e HTTPError = false /\ isinstance e URLError = true /\
    fst (main sdk args chk) =
      exit_json [("msg", PStr (exn_str e)); ("unreachable", PBool true)]) \/
   (isinstance e HTTPError = false /\ isinstance e URLError = false /\
    fst (main sdk args chk) = fail_json [("msg", PStr (exn_str e))])) /\
  (caught e = false -> fst (main sdk args chk) = traceback e).
Proof.
  intros Hmod Hrun.
  assert (Hmain : fst (main sdk args chk) = handle e).
  { unfold main. rewrite Hmod. unfold run_module. rewrite Hrun.
    reflexivity. }
  rewrite Hmain. unfold caught, handle. split.
  - intros Hc Hjson.
    destruct (isinstance e HTTPError) eqn:Hhttp.
    + left. split; [reflexivity|].
      destruct (exn_json e) as [info|]; [|now destruct Hjson].
      exists info. split; reflexivity.
    + destruct (isinstance e URLError) eqn:Hurl.
      * right. left. auto.
      * right. right. cbn [orb] in Hc. rewrite Hc. auto.
  - intros Hc.
    apply orb_false_iff in Hc as [Hc Hgen].
    apply orb_false_iff in Hc as [Hhttp Hurl].
    rewrite Hhttp, Hurl, Hgen. reflexivity.
Qed.

Lemma named_exceptions_are_translated_witness :
  fst (main (Samples.sdk_down Samples.runtime_error)
            (Samples.args "Enabled") false) =
    fail_json [("msg", PStr (exn_str Samples.runtime_error))].
Proof.
  destruct (named_exceptions_are_translated
              (Samples.sdk_down Samples.runtime_error)
              (Samples.args "Enabled") false
              (Samples.module_of "Enabled" false) Samples.runtime_error
              [Call (iDRACConnection
                       (params (Samples.module_of "Enabled" false)))]
              eq_refl eq_refl)
    as [Hcaught _].
  destruct (Hcaught eq_refl) as [(Hhttp & _) | [(_ & Hurl & _) | (_ & _ & H)]].
  - discriminate.
  - discriminate Hhttp.
  - discriminate Hurl.
  - exact H.
Defined.

(** C7 as stated fails: a transport error of a class no clause names,
    here the [OSError] of a socket that timed out while the session was
    being opened, is raised by the SDK and leaves [main]; the module
    ends with neither [exit_json] nor [fail_json]. *)
Lemma unnamed_exception_escapes :
  Samples.sdk_down Samples.timeout_error
    (iDRACConnection (params (Samples.module_of "Enabled" false))) =
    Raise Samples.timeout_error /\
  fst (main (Samples.sdk_down Samples.timeout_error)
            (Samples.args "Enabled") false) =
    traceback Samples.timeout_error /\
  ~ (exists kwargs,
       fst (main (Samples.sdk_down Samples.timeout_error)
                 (Samples.args "Enabled") false) = exit_json kwargs \/
       fst (main (Samples.sdk_down Samples.timeout_error)
                 (Samples.args "Enabled") false) = fail_json kwargs).
Proof.
  split; [reflexivity|]. split; [reflexivity|].
  intros (kwargs & [H | H]); discriminate H.
Qed.

(* ================================================================= *)
(** ** The dispatch *)

Lemma calls_app (t u : trace) : calls (t ++ u) = calls t ++ calls u.
Proof.
  induction t as [|[c| |] t IH]; simpl; congruence.
Qed.

Lemma setter_calls_app (t u : trace) :
  setter_calls (t ++ u) = setter_calls t ++ setter_calls u.
Proof.
  unfold setter_calls. rewrite calls_app. apply filter_app.
Qed.

(** Lines 166-173 call no setter. *)
Lemma set_share_no_setter (sdk : sdk_call -> result pyval)
    (idrac : pyval) (module : module_t) (t : trace) :
  setter_calls (snd (set_share sdk idrac module t)) = setter_calls t.
Proof.
  unfold_module. repeat step;
    repeat (rewrite setter_calls_app; cbn [setter_calls calls filter
                                           is_setter]);
    rewrite ?app_nil_r; reflexivity.
Qed.

(** Lines 174-185 call the selected setter, once, whatever the SDK
    answers. *)
Lemma dispatch_one_setter (sdk : sdk_call -> result pyval)
    (idrac : pyval) (ps : dict) (chk : bool) (s : string) (t : trace) :
  lookup "syslog" ps = Some (PStr s) ->
  s = "Enabled" \/ s = "Disabled" ->
  setter_calls (snd (dispatch_syslog sdk idrac (mk_module ps chk) t)) =
    setter_calls t ++ [setter_for s (apply_flag chk)].
Proof.
  intros Hl Hs. unfold_module. cbn [params check_mode]. rewrite Hl.
  destruct Hs; subst s; destruct chk;
    cbn [eq_str String.eqb Ascii.eqb Bool.eqb setter_for apply_flag];
    repeat step; cbn [snd];
    repeat (rewrite setter_calls_app; cbn [setter_calls calls filter
                                           is_setter]);
    rewrite ?app_nil_r, <- ?app_assoc; reflexivity.
Qed.

(** Reading the flag off [msg] calls nothing. *)
Lemma changed_of_trace (msg : pyval) (t : trace) :
  snd (changed_of msg t) = t.
Proof.
  unfold_module. repeat step; reflexivity.
Qed.

(** The trace of the [try] block: the opening of the session, then what
    [run_setup_idrac_syslog] calls, then the release. *)
Lemma try_block_trace (sdk : sdk_call -> result pyval)
    (module : module_t) :
  snd (try_block sdk module []) =
    match sdk (iDRACConnection (params module)) with
    | Return idrac =>
        snd (run_setup_idrac_syslog sdk idrac module
               [Call (iDRACConnection (params module))]) ++ [Release]
    | Raise _ => [Call (iDRACConnection (params module))]
    end.
Proof.
  unfold try_block, with_iDRACConnection, call. cbn [app].
  destruct (sdk (iDRACConnection (params module))) as [idrac|e];
    [|reflexivity].
  unfold bind at 1.
  destruct (run_setup_idrac_syslog sdk idrac module _) as [[msg|e] t];
    [|reflexivity].
  unfold bind, ret. pose proof (changed_of_trace msg t) as Hc.
  destruct (changed_of msg t) as [[c|e] t']; cbn [snd] in *; now subst.
Qed.

Lemma run_setup_trace (sdk : sdk_call -> result pyval) (idrac : pyval)
    (module : module_t) (t : trace) :
  snd (run_setup_idrac_syslog sdk idrac module t) =
    match set_share sdk idrac module t with
    | (Return _, t') => snd (dispatch_syslog sdk idrac module t')
    | (Raise _, t') => t'
    end.
Proof.
  unfold run_setup_idrac_syslog, bind.
  destruct (set_share sdk idrac module t) as [[u|e] t']; reflexivity.
Qed.

(** C2: when [syslog] is ["Enabled"] or ["Disabled"], the dispatch of
    [run_setup_idrac_syslog] invokes exactly one of the two setters, the
    one [syslog] names: ["Enabled"] the enable operation only,
    ["Disabled"] the disable operation only.  So an invocation that gets
    as far as the dispatch issues exactly that one setter call, and no
    invocation issues any other. *)
Theorem exactly_one_setter_selected_by_syslog
    (sdk : sdk_call -> result pyval) (args : dict) (chk : bool)
    (module : module_t) (s : string) :
  AnsibleModule argument_spec true args chk = inr module ->
  lookup "syslog" (params module) = Some (PStr s) ->
  s = "Enabled" \/ s = "Disabled" ->
  (forall idrac t,
     setter_calls (snd (dispatch_syslog sdk idrac module t)) =
       setter_calls t ++ [setter_for s (apply_flag chk)]) /\
  (forall idrac u t,
     sdk (iDRACConnection (params module)) = Return idrac ->
     set_share sdk idrac module [Call (iDRACConnection (params module))]
       = (Return u, t) ->
     setter_calls (snd (main sdk args chk)) =
       [setter_for s (apply_flag chk)]) /\
  (setter_calls (snd (main sdk args chk)) = [setter_for s (apply_flag chk)]
   \/ setter_calls (snd (main sdk args chk)) = []).
Proof.
  intros Hmod Hl Hs.
  assert (Hchk : check_mode module = chk)
    by apply (AnsibleModule_inr _ _ _ Hmod).
  destruct module as [ps cm]. cbn [params check_mode] in *. subst cm.
  assert (Hmain : snd (main sdk args chk) =
                  snd (try_block sdk (mk_module ps chk) [])).
  { unfold main. rewrite Hmod. apply run_module_trace. }
  rewrite Hmain, try_block_trace. clear Hmain. cbn [params].
  assert (Hrun : forall idrac u t,
            set_share sdk idrac (mk_module ps chk)
              [Call (iDRACConnection ps)] = (Return u, t) ->
            setter_calls
              (snd (run_setup_idrac_syslog sdk idrac (mk_module ps chk)
                      [Call (iDRACConnection ps)]) ++ [Release]) =
              [setter_for s (apply_flag chk)]).
  { intros idrac u t Hshare.
    pose proof (set_share_no_setter sdk idrac (mk_module ps chk)
                  [Call (iDRACConnection ps)]) as Hn.
    rewrite run_setup_trace, Hshare in *. cbn [snd] in Hn.
    rewrite setter_calls_app,
      (dispatch_one_setter sdk idrac ps chk s t Hl Hs), Hn.
    reflexivity. }
  split; [|split].
  - intros idrac t. now apply dispatch_one_setter.
  - intros idrac u t Hopen Hshare. rewrite Hopen. eauto.
  - destruct (sdk (iDRACConnection ps)) as [idrac|e]; [|now right].
    destruct (set_share sdk idrac (mk_module ps chk)
                [Call (iDRACConnection ps)]) as [[u|e] t] eqn:Hshare.
    + left. eauto.
    + right.
      pose proof (set_share_no_setter sdk idrac (mk_module ps chk)
                    [Call (iDRACConnection ps)]) as Hn.
      rewrite run_setup_trace, Hshare in *. cbn [snd] in Hn.
      rewrite setter_calls_app, Hn. reflexivity.
Qed.

Lemma exactly_one_setter_selected_by_syslog_witness :
  setter_calls
    (snd (main (Samples.sdk_ok (Samples.job "Success" "Applied") PNone)
               (Samples.args "Disabled") false)) =
    [disable_syslog None].
Proof.
  destruct (exactly_one_setter_selected_by_syslog
              (Samples.sdk_ok (Samples.job "Success" "Applied") PNone)
              (Samples.args "Disabled") false
              (Samples.module_of "Disabled" false) "Disabled"
              eq_refl eq_refl (or_intror eq_refl))
    as (_ & Hreached & _).
  eapply Hreached; reflexivity.
Defined.

(* ================================================================= *)
(** ** Check mode *)

(** [AnsibleModule] itself never ends the process with a result of the
    shape [main] exits with. *)
Lemma AnsibleModule_inl (args : dict) (chk : bool) (o : outcome) :
  AnsibleModule argument_spec true args chk = inl o ->
  exists e, o = fail_json [("msg", PStr e)].
Proof.
  unfold AnsibleModule.
  destruct (forallb _ _); [|intros [= <-]; eauto].
  destruct (check_options argument_spec args) as [e|d];
    [intros [= <-]; eauto|].
  rewrite andb_false_r. discriminate.
Qed.

(** In check mode no call that applies a change is issued. *)
Lemma check_mode_no_mutation (sdk : sdk_call -> result pyval)
    (args : dict) :
  mutating_calls (snd (main sdk args true)) = [].
Proof.
  unfold main.
  destruct (AnsibleModule argument_spec true args true) as [o|module]
    eqn:Hmod; [reflexivity|].
  open_module Hmod. unfold_module. cbn [params check_mode app lookup
    String.eqb Ascii.eqb Bool.eqb].
  destruct Hsyslog; subst s; repeat step; reflexivity.
Qed.





(** C4: in check mode the module invokes the selected setter with
    [apply_changes=False], then queries [is_change_applicable], and
    returns that prediction as the result payload; nothing is applied. *)
Theorem check_mode_predicts
    (sdk : sdk_call -> result pyval) (args : dict) (module : module_t)
    (s : string) (idrac r : pyval) (u : unit) (t : trace) :
  AnsibleModule argument_spec true args true = inr module ->
  lookup "syslog" (params module) = Some (PStr s) ->
  sdk (iDRACConnection (params module)) = Return idrac ->
  set_share sdk idrac module [Call (iDRACConnection (params module))]
    = (Return u, t) ->
  sdk (setter_for s (Some false)) = Return r ->
  run_setup_idrac_syslog sdk idrac module
    [Call (iDRACConnection (params module))] =
    (sdk is_change_applicable,
     t ++ [Call (setter_for s (Some false)); Call is_change_applicable]) /\
  mutating_calls (snd (main sdk args true)) = [] /\
  (forall d, sdk is_change_applicable = Return (PDict d) ->
     exists changed,
       main sdk args true =
         (exit_json [("msg", PDict d); ("changed", PBool changed)],
          t ++ [Call (setter_for s (Some false)); Call is_change_applicable;
                Release])).
Proof.
  intros Hmod Hl Hopen Hshare Hset.
  assert (Hs : s = "Enabled" \/ s = "Disabled").
  { destruct (AnsibleModule_inr _ _ _ Hmod)
      as (_ & ? & ? & ? & ? & ? & ? & ? & ? & s' & Hp & Hs & _).
    rewrite Hp in Hl. cbn in Hl. now injection Hl as <-. }
  assert (Hchk : check_mode module = true)
    by apply (AnsibleModule_inr _ _ _ Hmod).
  assert (Hrun : run_setup_idrac_syslog sdk idrac module
                   [Call (iDRACConnection (params module))] =
                 (sdk is_change_applicable,
                  t ++ [Call (setter_for s (Some false));
                        Call is_change_applicable])).
  { unfold run_setup_idrac_syslog. unfold bind at 1. rewrite Hshare.
    unfold dispatch_syslog, subscript. rewrite Hchk, Hl.
    unfold bind, call, ret.
    destruct Hs; subst s;
      cbn [eq_str String.eqb Ascii.eqb Bool.eqb setter_for] in *;
      rewrite Hset; rewrite <- app_assoc; reflexivity. }
  split; [exact Hrun|]. split; [apply check_mode_no_mutation|].
  intros d Hd. rewrite Hd in Hrun.
  exists (changed_flag d). unfold main. rewrite Hmod.
  rewrite (run_module_returned sdk module idrac (PDict d) _ Hopen Hrun).
  rewrite changed_of_dict. rewrite <- app_assoc. reflexivity.
Qed.

Lemma check_mode_predicts_witness :
  exists changed,
    main (Samples.sdk_ok PNone
            (Samples.job "Success" "Changes found to commit!"))
         (Samples.args "Disabled") true =
      (exit_json [("msg", Samples.job "Success" "Changes found to commit!");
                  ("changed", PBool changed)],
       [Call (iDRACConnection (params (Samples.module_of "Disabled" true)));
        Assign_use_redfish true;
        Call (UserCredentials PNone PNone);
        Call (create_share_obj (PStr "/tmp/share") PNone true
                (PStr "creds"));
        Call (set_liason_share (PStr "share"))]
       ++ [Call (disable_syslog (Some false)); Call is_change_applicable;
           Release]).
Proof.
  destruct (check_mode_predicts
              (Samples.sdk_ok PNone
                 (Samples.job "Success" "Changes found to commit!"))
              (Samples.args "Disabled")
              (Samples.module_of "Disabled" true) "Disabled"
              (PStr "idrac") PNone tt
              [Call (iDRACConnection
                       (params (Samples.module_of "Disabled" true)));
               Assign_use_redfish true;
               Call (UserCredentials PNone PNone);
               Call (create_share_obj (PStr "/tmp/share") PNone true
                       (PStr "creds"));
               Call (set_liason_share (PStr "share"))]
              eq_refl eq_refl eq_refl eq_refl eq_refl)
    as (_ & _ & Hexit).
  apply (Hexit _ eq_refl).
Defined.

(* ================================================================= *)
(** ** Further properties: what a run calls *)

(** Decide which event of a concrete trace a call is. *)
Ltac which_call :=
  repeat match goal with
         | H : _ \/ _ |- _ => destruct H
         | H : False |- _ => destruct H
         | H : Call _ = Call _ |- _ =>
             first [discriminate H | injection H as H; subst]
         | H : Assign_use_redfish _ = Call _ |- _ => discriminate H
         | H : Release = Call _ |- _ => discriminate H
         end.

(** X1: Outside check mode the prediction is never queried, a setter is
    only invoked without an [apply_changes] argument, and what the
    module exits with is what the selected setter returned. *)
Theorem normal_mode_returns_setter_result
    (sdk : sdk_call -> result pyval) (args : dict) :
  ~ In (Call is_change_applicable) (snd (main sdk args false)) /\
  (forall c, In c (setter_calls (snd (main sdk args false))) ->
             c = enable_syslog None \/ c = disable_syslog None) /\
  (forall v changed,
     fst (main sdk args false) =
       exit_json [("msg", v); ("changed", PBool changed)] ->
     exists module s,
       AnsibleModule argument_spec true args false = inr module /\
       lookup "syslog" (params module) = Some (PStr s) /\
       sdk (setter_for s None) = Return v /\
       In (Call (setter_for s None)) (snd (main sdk args false))).
Proof.
  unfold main.
  destruct (AnsibleModule argument_spec true args false) as [o|module]
    eqn:Hmod.
  - split; [intros []|]. split; [intros c []|].
    apply AnsibleModule_inl in Hmod as [e ->]. discriminate.
  - open_module Hmod. unfold_module. unfold handle.
    cbn [params check_mode app lookup String.eqb Ascii.eqb Bool.eqb].
    destruct Hsyslog; subst s; repeat step;
      (split; [cbn [In]; intros Hin; which_call|]);
      (split; [cbn [setter_calls calls filter is_setter In];
               intros c Hin; which_call; subst; auto|]);
      intros v changed H; try discriminate H; injection H as <- <-;
      eexists; eexists; (split; [reflexivity|]);
      (split; [reflexivity|]);
      cbn [setter_for String.eqb Ascii.eqb Bool.eqb In];
      (split; [assumption | tauto]).
Qed.

Lemma normal_mode_returns_setter_result_witness :
  exists module s,
    AnsibleModule argument_spec true (Samples.args "Enabled") false
      = inr module /\
    lookup "syslog" (params module) = Some (PStr s) /\
    Samples.sdk_ok (Samples.job "Success" "Applied") PNone
      (setter_for s None) = Return (Samples.job "Success" "Applied") /\
    In (Call (setter_for s None))
       (snd (main (Samples.sdk_ok (Samples.job "Success" "Applied") PNone)
                  (Samples.args "Enabled") false)).
Proof.
  destruct (normal_mode_returns_setter_result
              (Samples.sdk_ok (Samples.job "Success" "Applied") PNone)
              (Samples.args "Enabled"))
    as (_ & _ & Hpayload).
  apply (Hpayload (Samples.job "Success" "Applied") true).
  reflexivity.
Defined.

(** After a call into the SDK has raised, the module calls nothing
    more: the run ends with that call, followed by the release of the
    session unless the call was the opening of the session itself. *)
Lemma try_block_fails_fast (sdk : sdk_call -> result pyval)
    (module : module_t) (c : sdk_call) (e : exn) :
  In (Call c) (snd (try_block sdk module [])) ->
  sdk c = Raise e ->
  (c = iDRACConnection (params module) /\
   snd (try_block sdk module []) = [Call c]) \/
  (exists t, snd (try_block sdk module []) = t ++ [Call c; Release]).
Proof.
  destruct module as [ps cm]. unfold_module. cbn [params check_mode app].
  destruct cm; repeat step; cbn [In]; intros Hin Hc; which_call;
    try congruence;
    first [ left; split; reflexivity
          | right;
            match goal with
            | |- exists t, ?l = _ =>
                exists (removelast (removelast l)); reflexivity
            end ].
Qed.

(** X2: after a call into the SDK has raised, the module issues no
    further call: the run ends with that call, followed only by the
    release of the session, or by nothing when the call was the opening
    of the session. *)
Theorem raising_call_ends_the_run
    (sdk : sdk_call -> result pyval) (args : dict) (chk : bool)
    (c : sdk_call) (e : exn) :
  In (Call c) (snd (main sdk args chk)) ->
  sdk c = Raise e ->
  (exists ps, c = iDRACConnection ps /\ snd (main sdk args chk) = [Call c])
  \/ (exists t, snd (main sdk args chk) = t ++ [Call c; Release]).
Proof.
  unfold main.
  destruct (AnsibleModule argument_spec true args chk) as [o|module];
    [intros []|].
  rewrite run_module_trace. intros Hin Hc.
  destruct (try_block_fails_fast sdk module c e Hin Hc) as [[-> H]|H];
    eauto.
Qed.

Lemma raising_call_ends_the_run_witness :
  (exists ps,
     enable_syslog None = iDRACConnection ps /\
     snd (main (Samples.sdk_setter_raises Samples.url_error)
               (Samples.args "Enabled") false) = [Call (enable_syslog None)])
  \/ (exists t,
        snd (main (Samples.sdk_setter_raises Samples.url_error)
                  (Samples.args "Enabled") false) =
          t ++ [Call (enable_syslog None); Release]).
Proof.
  apply (raising_call_ends_the_run
           (Samples.sdk_setter_raises Samples.url_error)
           (Samples.args "Enabled") false (enable_syslog None)
           Samples.url_error).
  - simpl. tauto.
  - reflexivity.
Defined.

(** X3: The module raises nothing of its own but the [AttributeError] of
    [msg.get] on a result that is no dictionary: with the parameters
    [AnsibleModule] has checked, no key is missing and [msg] is always
    assigned, so any other exception at the handlers was raised by a
    call into the SDK. *)
Theorem exceptions_come_from_the_sdk
    (sdk : sdk_call -> result pyval) (args : dict) (chk : bool)
    (module : module_t) (e : exn) (t : trace) :
  AnsibleModule argument_spec true args chk = inr module ->
  try_block sdk module [] = (Raise e, t) ->
  (exists c, In (Call c) t /\ sdk c = Raise e) \/
  (e = no_get /\
   exists c v, In (Call c) t /\ sdk c = Return v /\
               forall d, v <> PDict d).
Proof.
  intros Hmod. open_module Hmod. unfold_module.
  cbn [params check_mode app lookup String.eqb Ascii.eqb Bool.eqb].
  destruct Hsyslog; subst s; destruct chk; repeat step;
    intros H; try discriminate H; injection H as <- <-;
    first
      [ match goal with
        | Hr : sdk ?c = Raise ?e' |- _ =>
            left; exists c; split; [cbn [In]; intuition | exact Hr]
        end
      | right; split; [reflexivity|];
        match goal with
        | Hr : sdk ?c = Return ?v |- _ =>
            exists c, v; split; [cbn [In]; intuition|];
            split; [exact Hr | intros d; discriminate]
        end ].
Qed.

Lemma exceptions_come_from_the_sdk_witness :
  (exists c,
     In (Call c)
        [Call (iDRACConnection (params (Samples.module_of "Enabled" false)))]
     /\ Samples.sdk_down Samples.runtime_error c =
        Raise Samples.runtime_error) \/
  (Samples.runtime_error = no_get /\
   exists c v,
     In (Call c)
        [Call (iDRACConnection (params (Samples.module_of "Enabled" false)))]
     /\ Samples.sdk_down Samples.runtime_error c = Return v /\
     forall d, v <> PDict d).
Proof.
  apply (exceptions_come_from_the_sdk
           (Samples.sdk_down Samples.runtime_error)
           (Samples.args "Enabled") false
           (Samples.module_of "Enabled" false)); reflexivity.
Defined.

(* ================================================================= *)
(** ** Further properties: the handlers at their edges *)

(** X4: An [HTTPError] is a [URLError], but the clause for [HTTPError] comes
    first: an [HTTPError] raised by the SDK never ends as "unreachable".
    It ends in [fail_json] when its body is JSON; when it is not,
    [json.load] raises inside the handler and that exception leaves
    [main]. *)
Theorem http_error_is_never_unreachable
    (sdk : sdk_call -> result pyval) (args : dict) (chk : bool)
    (c : sdk_call) (e : exn) :
  In (Call c) (snd (main sdk args chk)) ->
  sdk c = Raise e ->
  isinstance e HTTPError = true ->
  (forall kwargs, fst (main sdk args chk) <> exit_json kwargs) /\
  (exn_json e = None ->
   exists e', fst (main sdk args chk) = traceback e' /\
              isinstance e' ValueError = true).
Proof.
  intros Hin Hc Hhttp.
  rewrite (main_handles sdk args chk c e Hin Hc).
  unfold handle. rewrite Hhttp. split.
  - intros kwargs. destruct (exn_json e); discriminate.
  - intros ->. eexists. split; reflexivity.
Qed.

Lemma http_error_is_never_unreachable_witness :
  exists e',
    fst (main (Samples.sdk_down Samples.html_error)
              (Samples.args "Enabled") true) = traceback e' /\
    isinstance e' ValueError = true.
Proof.
  refine (proj2 (http_error_is_never_unreachable
                   (Samples.sdk_down Samples.html_error)
                   (Samples.args "Enabled") true
                   (iDRACConnection
                      (params (Samples.module_of "Enabled" true)))
                   Samples.html_error _ eq_refl eq_refl) eq_refl).
  simpl. tauto.
Defined.

(** X5: When the SDK answers with something that is no dictionary ([None],
    say), [msg.get] raises [AttributeError]; no clause names it, so it
    leaves [main], after the session has been released. *)
Theorem non_dictionary_result_escapes
    (sdk : sdk_call -> result pyval) (args : dict) (chk : bool)
    (module : module_t) (idrac v : pyval) (t : trace) :
  AnsibleModule argument_spec true args chk = inr module ->
  sdk (iDRACConnection (params module)) = Return idrac ->
  run_setup_idrac_syslog sdk idrac module
    [Call (iDRACConnection (params module))] = (Return v, t) ->
  (forall d, v <> PDict d) ->
  main sdk args chk = (traceback no_get, t ++ [Release]).
Proof.
  intros Hmod Hopen Hrun Hv. unfold main. rewrite Hmod.
  rewrite (run_module_returned sdk module idrac v t Hopen Hrun).
  destruct v; try reflexivity. now destruct (Hv d).
Qed.

Lemma non_dictionary_result_escapes_witness :
  fst (main (Samples.sdk_ok PNone PNone) (Samples.args "Enabled") false) =
    traceback no_get.
Proof.
  erewrite (non_dictionary_result_escapes
              (Samples.sdk_ok PNone PNone) (Samples.args "Enabled") false
              (Samples.module_of "Enabled" false) (PStr "idrac") PNone);
    try reflexivity.
  intros d; discriminate.
Defined.

(* ================================================================= *)
(** ** Further properties: module objects [AnsibleModule] did not check *)

(** X6: [run_setup_idrac_syslog] on a module object whose [syslog] is
    neither choice.  Outside check mode neither branch assigns [msg]:
    the function raises [UnboundLocalError] without having called a
    setter, and [main]'s handlers do not take it.  In check mode no
    setter is called either and the prediction is still queried and
    returned. *)
Theorem other_syslog_value
    (sdk : sdk_call -> result pyval) (ps : dict) (v idrac : pyval)
    (u : unit) (t : trace) :
  lookup "syslog" ps = Some v ->
  v <> PStr "Enabled" ->
  v <> PStr "Disabled" ->
  sdk (iDRACConnection ps) = Return idrac ->
  set_share sdk idrac (mk_module ps false) [Call (iDRACConnection ps)]
    = (Return u, t) ->
  run_module sdk (mk_module ps false) =
    (traceback unbound_msg, t ++ [Release]) /\
  run_setup_idrac_syslog sdk idrac (mk_module ps true)
    [Call (iDRACConnection ps)] =
    (sdk is_change_applicable, t ++ [Call is_change_applicable]) /\
  setter_calls (snd (run_module sdk (mk_module ps true))) = [].
Proof.
  intros Hl Hen Hdis Hopen Hshare.
  apply eq_str_false in Hen, Hdis.
  assert (Hshare' : set_share sdk idrac (mk_module ps true)
                      [Call (iDRACConnection ps)] = (Return u, t))
    by exact Hshare.
  assert (Hcheck : run_setup_idrac_syslog sdk idrac (mk_module ps true)
                     [Call (iDRACConnection ps)] =
                   (sdk is_change_applicable,
                    t ++ [Call is_change_applicable])).
  { unfold run_setup_idrac_syslog. unfold bind at 1. rewrite Hshare'.
    unfold dispatch_syslog, subscript, bind, call, ret.
    cbn [params check_mode]. rewrite Hl, Hen, Hdis. reflexivity. }
  split; [|split].
  - unfold run_module, try_block, with_iDRACConnection, call.
    cbn [params app]. rewrite Hopen.
    unfold run_setup_idrac_syslog. unfold bind at 1. unfold bind at 1.
    rewrite Hshare.
    unfold dispatch_syslog, subscript, bind, raise, ret.
    cbn [params check_mode]. rewrite Hl, Hen, Hdis. reflexivity.
  - exact Hcheck.
  - rewrite run_module_trace, try_block_trace. cbn [params].
    rewrite Hopen, Hcheck. cbn [snd].
    pose proof (set_share_no_setter sdk idrac (mk_module ps true)
                  [Call (iDRACConnection ps)]) as Hn.
    rewrite Hshare' in Hn. cbn [snd] in Hn.
    rewrite !setter_calls_app, Hn. reflexivity.
Qed.

Lemma other_syslog_value_witness :
  fst (run_module (Samples.sdk_ok PNone PNone) (Samples.module_other false))
    = traceback unbound_msg.
Proof.
  refine (f_equal fst
            (proj1 (other_syslog_value
                      (Samples.sdk_ok PNone PNone)
                      (params (Samples.module_other false)) (PStr "On")
                      (PStr "idrac") tt
                      [Call (iDRACConnection
                               (params (Samples.module_other false)));
                       Assign_use_redfish true;
                       Call (UserCredentials PNone PNone);
                       Call (create_share_obj (PStr "/tmp/share") PNone
                               true (PStr "creds"));
                       Call (set_liason_share (PStr "share"))]
                      eq_refl _ _ eq_refl eq_refl)));
    discriminate.
Defined.



(** X8: Every operation on the pending configuration, a setter or the
    prediction, is issued after the liaison share has been set, in every
    run. *)
Theorem share_is_set_first
    (sdk : sdk_call -> result pyval) (args : dict) (chk : bool) :
  share_set_first (snd (main sdk args chk)) = true.
Proof.
  unfold main.
  destruct (AnsibleModule argument_spec true args chk) as [o|module];
    [reflexivity|].
  rewrite run_module_trace.
  destruct module as [ps cm]. unfold_module. cbn [params check_mode app].
  destruct cm; repeat step; reflexivity.
Qed.

Lemma releases_app (t u : trace) :
  releases (t ++ u) = releases t + releases u.
Proof.
  induction t as [|[c| |] t IH]; simpl; congruence.
Qed.

(** X9: The session is released exactly when it was opened: once if the
    opening returned, never if the arguments were refused or the
    opening raised. *)
Theorem released_exactly_when_opened
    (sdk : sdk_call -> result pyval) (args : dict) (chk : bool) :
  releases (snd (main sdk args chk)) =
    match AnsibleModule argument_spec true args chk with
    | inr module =>
        match sdk (iDRACConnection (params module)) with
        | Return _ => 1
        | Raise _ => 0
        end
    | inl _ => 0
    end.
Proof.
  unfold main.
  destruct (AnsibleModule argument_spec true args chk) as [o|module];
    [reflexivity|].
  rewrite run_module_trace.
  pose proof (try_block_release sdk module) as Hrel. cbv zeta in Hrel.
  destruct (sdk (iDRACConnection (params module))); [|exact Hrel].
  destruct Hrel as [Hlast Hnone].
  rewrite Hlast, releases_app, Hnone. reflexivity.
Qed.

(* ================================================================= *)
(** ** Further properties: the arguments and the share *)

(** What [check_options] accepted is what [module.params] holds under
    each option's name. *)
Lemma check_options_lookup (spec : list option_spec) (args d : dict) :
  NoDup (map opt_name spec) ->
  check_options spec args = inr d ->
  forall o, In o spec ->
    exists v, check_option o args = inr v /\
              lookup (opt_name o) d = Some v.
Proof.
  revert d. induction spec as [|o' spec IH]; intros d Hnd H o Hin;
    [destruct Hin|].
  simpl in H.
  destruct (check_option o' args) as [e|v'] eqn:Ho'; [discriminate|].
  destruct (check_options spec args) as [e|d'] eqn:Hd'; [discriminate|].
  injection H as <-. inversion Hnd as [|? ? Hnotin Hnd']; subst.
  destruct Hin as [->|Hin].
  - exists v'. split; [assumption|]. simpl. now rewrite String.eqb_refl.
  - destruct (IH d' Hnd' eq_refl o Hin) as (v & Hv & Hl).
    exists v. split; [assumption|]. simpl.
    destruct (String.eqb (opt_name o') (opt_name o)) eqn:E; [|assumption].
    apply String.eqb_eq in E. destruct Hnotin. rewrite E.
    now apply in_map.
Qed.

Lemma argument_spec_names_distinct : NoDup (map opt_name argument_spec).
Proof.
  cbn. repeat constructor; cbn; intuition discriminate.
Qed.

Lemma AnsibleModule_param (args : dict) (chk : bool) (module : module_t)
    (o : option_spec) :
  AnsibleModule argument_spec true args chk = inr module ->
  In o argument_spec ->
  exists v, check_option o args = inr v /\
            lookup (opt_name o) (params module) = Some v.
Proof.
  unfold AnsibleModule.
  destruct (forallb _ _); [|discriminate].
  destruct (check_options argument_spec args) as [e|d] eqn:Hd;
    [discriminate|].
  rewrite andb_false_r. intros [= <-] Hin.
  exact (check_options_lookup _ _ _ argument_spec_names_distinct Hd o Hin).
Qed.

(** X10: A required option the caller gave under none of its names makes the
    module fail before anything is called on the SDK. *)
Theorem missing_required_argument
    (sdk : sdk_call -> result pyval) (args : dict) (chk : bool)
    (o : option_spec) :
  In o argument_spec ->
  opt_required o = true ->
  supplied o args = None ->
  exists e, main sdk args chk = (fail_json [("msg", PStr e)], []).
Proof.
  intros Hin Hreq Hmiss. unfold main.
  destruct (AnsibleModule argument_spec true args chk) as [out|module]
    eqn:Hmod.
  - apply AnsibleModule_inl in Hmod as [e ->]. eauto.
  - destruct (AnsibleModule_param _ _ _ o Hmod Hin) as (v & Hv & _).
    unfold check_option in Hv. rewrite Hmiss, Hreq in Hv. discriminate.
Qed.

Lemma missing_required_argument_witness :
  exists e,
    main (Samples.sdk_ok PNone PNone) Samples.args_no_share false =
      (fail_json [("msg", PStr e)], []).
Proof.
  apply (missing_required_argument
           (Samples.sdk_ok PNone PNone) Samples.args_no_share false
           (mk_option "share_name" true type_str None None [] false)).
  - simpl. tauto.
  - reflexivity.
  - reflexivity.
Defined.

(** X11: The two passwords may be given under their aliases, and the three
    optional share parameters are [None] when the caller leaves them
    out. *)
Theorem aliases_and_omitted_share_parameters
    (args : dict) (chk : bool) (module : module_t) :
  AnsibleModule argument_spec true args chk = inr module ->
  (forall v, lookup "idrac_password" args = None ->
             lookup "idrac_pwd" args = Some v ->
             lookup "idrac_password" (params module) = Some v) /\
  (forall v, lookup "share_password" args = None ->
             lookup "share_pwd" args = Some v ->
             lookup "share_password" (params module) = Some v) /\
  (lookup "share_user" args = None ->
   lookup "share_user" (params module) = Some PNone) /\
  (lookup "share_mnt" args = None ->
   lookup "share_mnt" (params module) = Some PNone) /\
  (lookup "share_password" args = None ->
   lookup "share_pwd" args = None ->
   lookup "share_password" (params module) = Some PNone).
Proof.
  intros Hmod.
  assert (Hp : forall o, In o argument_spec ->
             exists v, check_option o args = inr v /\
                       lookup (opt_name o) (params module) = Some v)
    by (intros o; apply (AnsibleModule_param _ _ _ o Hmod)).
  assert (Halias : forall o v,
            In o argument_spec -> supplied o args = Some v ->
            lookup (opt_name o) (params module) = Some v).
  { intros o v Hin Hs. destruct (Hp o Hin) as (w & Hw & Hl).
    rewrite Hl. f_equal. unfold check_option in Hw. rewrite Hs in Hw.
    destruct (has_type (opt_type o) v); [|discriminate].
    destruct (opt_choices o) as [cs|]; [|congruence].
    destruct (existsb (eq_str v) cs); congruence. }
  assert (Hnone : forall o,
            In o argument_spec -> supplied o args = None ->
            opt_default o = None ->
            lookup (opt_name o) (params module) = Some PNone).
  { intros o Hin Hs Hd. destruct (Hp o Hin) as (w & Hw & Hl).
    rewrite Hl. f_equal. unfold check_option in Hw.
    rewrite Hs, Hd in Hw. destruct (opt_required o); congruence. }
  repeat split.
  - intros v H1 H2.
    apply (Halias (mk_option "idrac_password" true type_str None None
                     ["idrac_pwd"] true)); [simpl; tauto|].
    unfold supplied. cbn. now rewrite H1, H2.
  - intros v H1 H2.
    apply (Halias (mk_option "share_password" false type_str None None
                     ["share_pwd"] true)); [simpl; tauto|].
    unfold supplied. cbn. now rewrite H1, H2.
  - intros H1.
    apply (Hnone (mk_option "share_user" false type_str None None []
                    false)); [simpl; tauto| |reflexivity].
    unfold supplied. cbn. now rewrite H1.
  - intros H1.
    apply (Hnone (mk_option "share_mnt" false type_str None None []
                    false)); [simpl; tauto| |reflexivity].
    unfold supplied. cbn. now rewrite H1.
  - intros H1 H2.
    apply (Hnone (mk_option "share_password" false type_str None None
                    ["share_pwd"] true)); [simpl; tauto| |reflexivity].
    unfold supplied. cbn. now rewrite H1, H2.
Qed.

Lemma aliases_and_omitted_share_parameters_witness :
  lookup "idrac_password" (params Samples.module_defaults)
    = Some (PStr "calvin") /\
  lookup "share_user" (params Samples.module_defaults) = Some PNone.
Proof.
  destruct (aliases_and_omitted_share_parameters
              Samples.args_defaults false Samples.module_defaults eq_refl)
    as (Hpwd & _ & Huser & _).
  split; [apply Hpwd | apply Huser]; reflexivity.
Defined.

(** X12: How the liaison share is built: [UserCredentials] is given the
    share user and password, [create_share_obj] the share name, the
    mount point, [isFolder=True] and the credentials object just
    obtained, and [set_liason_share] the share object just obtained;
    nothing else is called in between. *)
Theorem share_is_built_from_the_parameters
    (sdk : sdk_call -> result pyval) (args : dict) (chk : bool)
    (module : module_t) (idrac : pyval) (u : unit) (t t0 : trace) :
  AnsibleModule argument_spec true args chk = inr module ->
  set_share sdk idrac module t0 = (Return u, t) ->
  exists creds share,
    sdk (UserCredentials (dict_get (params module) "share_user")
                         (dict_get (params module) "share_password"))
      = Return creds /\
    sdk (create_share_obj (dict_get (params module) "share_name")
                          (dict_get (params module) "share_mnt") true creds)
      = Return share /\
    t = t0 ++
        [Assign_use_redfish true;
         Call (UserCredentials (dict_get (params module) "share_user")
                 (dict_get (params module) "share_password"));
         Call (create_share_obj (dict_get (params module) "share_name")
                 (dict_get (params module) "share_mnt") true creds);
         Call (set_liason_share share)].
Proof.
  intros Hmod. open_module Hmod. unfold_module. unfold dict_get.
  cbn [params check_mode lookup String.eqb Ascii.eqb Bool.eqb].
  repeat step; intros H; try discriminate H; injection H as _ <-.
  do 2 eexists. repeat split; try eassumption.
  rewrite <- !app_assoc. reflexivity.
Qed.

Lemma share_is_built_from_the_parameters_witness :
  exists creds share,
    Samples.sdk_ok PNone PNone (UserCredentials PNone PNone)
      = Return creds /\
    Samples.sdk_ok PNone PNone
      (create_share_obj (PStr "/tmp/share") PNone true creds)
      = Return share /\
    [Assign_use_redfish true; Call (UserCredentials PNone PNone);
     Call (create_share_obj (PStr "/tmp/share") PNone true (PStr "creds"));
     Call (set_liason_share (PStr "share"))] =
    [] ++
    [Assign_use_redfish true; Call (UserCredentials PNone PNone);
     Call (create_share_obj (PStr "/tmp/share") PNone true creds);
     Call (set_liason_share share)].
Proof.
  apply (share_is_built_from_the_parameters
           (Samples.sdk_ok PNone PNone) (Samples.args "Enabled") false
           (Samples.module_of "Enabled" false) (PStr "idrac") tt);
    reflexivity.
Defined.

(** X13: In check mode the value a setter returns is discarded: two
    behaviours of the SDK that differ only in what the setters return
    (not in whether they raise) make the module end the same way, after
    the same calls. *)
Theorem check_mode_discards_setter_result
    (sdk sdk' : sdk_call -> result pyval) (args : dict) :
  (forall c, is_setter c = false -> sdk' c = sdk c) ->
  (forall c e, is_setter c = true -> sdk' c = Raise e <-> sdk c = Raise e) ->
  main sdk' args true = main sdk args true.
Proof.
  intros Hsame Hraise. unfold main.
  destruct (AnsibleModule argument_spec true args true) as [o|module]
    eqn:Hmod; [reflexivity|].
  open_module Hmod. unfold_module. unfold handle.
  cbn [params check_mode app lookup String.eqb Ascii.eqb Bool.eqb eq_str].
  rewrite (Hsame is_change_applicable eq_refl),
    (Hsame (iDRACConnection _) eq_refl),
    (Hsame (UserCredentials _ _) eq_refl).
  destruct (sdk (iDRACConnection _)) as [idrac|e]; [|reflexivity].
  destruct (sdk (UserCredentials _ _)) as [creds|e]; [|reflexivity].
  rewrite (Hsame (create_share_obj _ _ _ _) eq_refl).
  destruct (sdk (create_share_obj _ _ _ _)) as [share|e]; [|reflexivity].
  rewrite (Hsame (set_liason_share _) eq_refl).
  destruct (sdk (set_liason_share _)) as [r|e]; [|reflexivity].
  destruct Hsyslog; subst s;
    cbn [eq_str String.eqb Ascii.eqb Bool.eqb];
    match goal with
    | |- context [sdk ?c] =>
        lazymatch c with
        | enable_syslog _ => pose proof (fun e => Hraise c e eq_refl) as Hc
        | disable_syslog _ => pose proof (fun e => Hraise c e eq_refl) as Hc
        end;
        destruct (sdk c) as [v|e], (sdk' c) as [v'|e'];
        try reflexivity
    end.
  all: first
    [ exfalso; discriminate (proj1 (Hc _) eq_refl)
    | exfalso; discriminate (proj2 (Hc _) eq_refl)
    | injection (proj1 (Hc _) eq_refl) as ->; reflexivity ].
Qed.

Lemma check_mode_discards_setter_result_witness :
  main (Samples.sdk_ok (Samples.job "Success" "Applied")
          (Samples.job "Success" "Changes found to commit!"))
       (Samples.args "Enabled") true =
  main (Samples.sdk_ok PNone
          (Samples.job "Success" "Changes found to commit!"))
       (Samples.args "Enabled") true.
Proof.
  apply (check_mode_discards_setter_result
           (Samples.sdk_ok PNone
              (Samples.job "Success" "Changes found to commit!"))
           (Samples.sdk_ok (Samples.job "Success" "Applied")
              (Samples.job "Success" "Changes found to commit!"))
           (Samples.args "Enabled")).
  - intros c H. destruct c; try reflexivity; discriminate H.
  - intros c e H. destruct c; try discriminate H; split; discriminate.
Defined.
